(** * provision-eks-cluster: the Pulumi program [index.ts] as a resource graph

    The script [src/aws/provision-eks-cluster/index.ts] is embedded as a
    computation in a state monad whose state is the list of resources the
    script has declared so far, in declaration order.  JavaScript numbers are
    the kernel's binary64 floats; deferred resource attributes
    ([pulumi.Output]) are symbolic references to an attribute of a declared
    resource. *)

From Stdlib Require Import String Ascii List Bool Arith ZArith Lia.
From Stdlib Require Import Floats Uint63 DecimalString.
From Stdlib Require DecimalNat FinFun.
From ExtLib Require Import Structures.Monad Structures.MonadState.
From ExtLib Require Import Data.Monads.StateMonad.
Import ListNotations.
Import MonadNotation.
Local Open Scope string_scope.
Local Open Scope monad_scope.

(** ** JavaScript values *)

(** A JavaScript [number] is an IEEE 754 binary64 value. *)
Definition number : Type := float.

(** The Number value of an array position. *)
Definition number_of_nat (n : nat) : number :=
  PrimFloat.of_uint63 (Uint63.of_Z (Z.of_nat n)).

(** [ToBoolean]: which values count as true in a condition. *)
Class ToBoolean (A : Type) : Type := toBoolean : A -> bool.

(** +0, -0 and NaN are falsy, every other number is truthy. *)
#[export] Instance ToBoolean_number : ToBoolean number :=
  fun x => negb (PrimFloat.eqb x 0 || PrimFloat.is_nan x).

(** The empty string is falsy, every other string is truthy. *)
#[export] Instance ToBoolean_string : ToBoolean string :=
  fun s => negb (String.eqb s "").

(** [v || d] where [v] may be [undefined] ([None]): the left operand when it
    is truthy, the right operand otherwise. *)
Definition logical_or {A : Type} `{ToBoolean A} (v : option A) (d : A) : A :=
  match v with
  | Some x => if toBoolean x then x else d
  | None => d
  end.

(** Template-literal rendering of an array position: its decimal digits. *)
Definition string_of_index (index : nat) : string :=
  NilEmpty.string_of_uint (Nat.to_uint index).

(** ** pulumi.Config *)

(** The two accessors the script calls on [new pulumi.Config()]: each maps a
    key to the configured value, or to [undefined] when the key is absent. *)
Record Config : Type := {
  get : string -> option string;
  getNumber : string -> option number
}.

(** The configuration with no key set. *)
Definition emptyConfig : Config :=
  {| get := fun _ => None; getNumber := fun _ => None |}.

(** ** Configuration values (lines 5-10) *)

Section Configuration.
Variable config : Config.

Definition minClusterSize : number :=
  logical_or (getNumber config "minClusterSize") 3%float.
Definition maxClusterSize : number :=
  logical_or (getNumber config "maxClusterSize") 6%float.
Definition desiredClusterSize : number :=
  logical_or (getNumber config "desiredClusterSize") 3%float.
Definition eksNodeInstanceType : string :=
  logical_or (get config "eksNodeInstanceType") "t3.medium".
Definition vpcNetworkCidr : string :=
  logical_or (get config "vpcNetworkCidr") "10.0.0.0/16".
End Configuration.

(** ** Deferred values and resources *)

Inductive Kind : Type :=
  | KVpc | KSubnet | KRole | KRolePolicyAttachment | KCluster | KNodeGroup.

(** A [pulumi.Output]: the attribute [property] of the resource of kind
    [kind] declared under the logical name [owner]; its value is known only
    once the engine has created that resource. *)
Record Output : Type := {
  kind : Kind;
  owner : string;
  property : string
}.

(** A JavaScript object literal whose values are strings. *)
Definition StringMap : Type := list (string * string).

(** The argument of the two [JSON.stringify] calls. *)
#[warnings="-register-all"]
Inductive Json : Type :=
  | JString (s : string)
  | JArray (items : list Json)
  | JObject (members : list (string * Json)).

Module Vpc.
Record Args : Type := { tags : StringMap; cidrBlock : string }.
End Vpc.

Module Subnet.
Record Args : Type := {
  vpcId : Output;
  cidrBlock : string;
  mapPublicIpOnLaunch : bool;
  availabilityZone : string;
  tags : StringMap
}.
End Subnet.

Module Role.
(** [assumeRolePolicy] holds the document handed to [JSON.stringify]. *)
Record Args : Type := { assumeRolePolicy : Json }.
End Role.

Module RolePolicyAttachment.
Record Args : Type := { role : Output; policyArn : string }.
End RolePolicyAttachment.

Module Cluster.
Record VpcConfig : Type := { subnetIds : list Output }.
Record Args : Type := {
  roleArn : Output;
  vpcConfig : VpcConfig;
  version : string;
  tags : StringMap
}.
End Cluster.

Module NodeGroup.
Record ScalingConfig : Type := {
  desiredSize : number;
  maxSize : number;
  minSize : number
}.
Record Args : Type := {
  clusterName : Output;
  nodeRoleArn : Output;
  subnetIds : list Output;
  scalingConfig : ScalingConfig;
  instanceTypes : list string
}.
End NodeGroup.

(** One constructor per resource class the script instantiates; the first
    argument is the logical name given to [new]. *)
Inductive Resource : Type :=
  | NewVpc (name : string) (args : Vpc.Args)
  | NewSubnet (name : string) (args : Subnet.Args)
  | NewRole (name : string) (args : Role.Args)
  | NewRolePolicyAttachment (name : string) (args : RolePolicyAttachment.Args)
  | NewCluster (name : string) (args : Cluster.Args)
  | NewNodeGroup (name : string) (args : NodeGroup.Args).

Definition kindOf (r : Resource) : Kind :=
  match r with
  | NewVpc _ _ => KVpc
  | NewSubnet _ _ => KSubnet
  | NewRole _ _ => KRole
  | NewRolePolicyAttachment _ _ => KRolePolicyAttachment
  | NewCluster _ _ => KCluster
  | NewNodeGroup _ _ => KNodeGroup
  end.

Definition logicalName (r : Resource) : string :=
  match r with
  | NewVpc n _ | NewSubnet n _ | NewRole n _
  | NewRolePolicyAttachment n _ | NewCluster n _ | NewNodeGroup n _ => n
  end.

(** [r.p] for an output property [p] of the resource [r]. *)
Definition attribute (r : Resource) (p : string) : Output :=
  {| kind := kindOf r; owner := logicalName r; property := p |}.

Module Out.
Definition id (r : Resource) : Output := attribute r "id".
Definition arn (r : Resource) : Output := attribute r "arn".
Definition name (r : Resource) : Output := attribute r "name".
Definition endpoint (r : Resource) : Output := attribute r "endpoint".
Definition certificateAuthority (r : Resource) : Output :=
  attribute r "certificateAuthority".
End Out.

(** ** The declaration monad *)

(** Running the script threads the list of resources declared so far. *)
Definition Pulumi : Type -> Type := state (list Resource).

(** [new C(name, args)]: registers the resource after those already declared
    and evaluates to its handle. *)
Definition new (r : Resource) : Pulumi Resource :=
  modify (fun declared => (declared ++ [r])%list) ;; ret r.

(** [Array.prototype.map] with a callback that declares resources: the
    callback receives each element with its position, left to right. *)
Fixpoint map_from {A B : Type} (f : A -> nat -> Pulumi B) (index : nat)
    (l : list A) : Pulumi (list B) :=
  match l with
  | [] => ret []
  | x :: rest =>
      y <- f x index ;;
      ys <- map_from f (S index) rest ;;
      ret (y :: ys)
  end.

Definition Array_map {A B : Type} (f : A -> nat -> Pulumi B) (l : list A)
    : Pulumi (list B) :=
  map_from f 0 l.

(** ** The client-configuration document (lines 137-168) *)

(** The resolved value of [eksCluster.certificateAuthority]. *)
Record CertificateAuthority : Type := { data : string }.

Module ClusterInfo.
Record t : Type := { server : string; certificate_authority_data : string }.
End ClusterInfo.

Module ClusterEntry.
Record t : Type := { cluster : ClusterInfo.t; name : string }.
End ClusterEntry.

Module Context.
Record t : Type := { cluster : string; user : string }.
End Context.

Module ContextEntry.
Record t : Type := { context : Context.t; name : string }.
End ContextEntry.

Module Exec.
Record t : Type := {
  apiVersion : string;
  command : string;
  args : list string
}.
End Exec.

Module User.
Record t : Type := { exec : Exec.t }.
End User.

Module UserEntry.
Record t : Type := { name : string; user : User.t }.
End UserEntry.

Module KubeConfig.
Record t : Type := {
  apiVersion : string;
  clusters : list ClusterEntry.t;
  contexts : list ContextEntry.t;
  current_context : string;
  kind : string;
  users : list UserEntry.t
}.
End KubeConfig.

(** The output of [pulumi.all([a, b, c]).apply(callback)]: the engine calls
    [callback] on the resolved values of [inputs] once all are available. *)
Record Derived (T : Type) : Type := {
  inputs : list Output;
  callback : string -> string -> CertificateAuthority -> T
}.
Arguments inputs {T} _.
Arguments callback {T} _ _ _ _.

(** A value bound by an [export const]. *)
Inductive Exported : Type :=
  | ExportOutput (o : Output)
  | ExportDerived (d : Derived KubeConfig.t).

(** ** The script *)

(** Lines 21-26. *)
Definition privateSubnetCidrBlock : list string :=
  ["10.0.1.0/24"; "10.0.2.0/24"; "10.0.3.0/24"].
Definition publicSubnetCidrBlock : list string :=
  ["10.0.101.0/24"; "10.0.102.0/24"; "10.0.103.0/24"].

(** Line 38, the condition of the conditional: [index / 2 == 0], a binary64
    division followed by the IEEE comparison. *)
Definition zoneCondition (index : nat) : bool :=
  (number_of_nat index / 2 =? 0)%float.

(** Line 34, the template literal naming a subnet. *)
Definition subnetName (isPublic : bool) (index : nat) : string :=
  (if isPublic then "public" else "private") ++ "-subnet-"
    ++ string_of_index index.

(** Lines 29-42.  [eksVpc] is the variable the arrow function closes over;
    [index] is the position [Array.prototype.map] hands to its callback. *)
Definition createSubnetAndGetID (eksVpc : Resource) (cidrRange : string)
    (index : nat) (isPublic : bool) : Pulumi Output :=
  subnet <- new (NewSubnet (subnetName isPublic index)
    {| Subnet.vpcId := Out.id eksVpc;
       Subnet.cidrBlock := cidrRange;
       Subnet.mapPublicIpOnLaunch := isPublic;
       Subnet.availabilityZone :=
         if zoneCondition index then "us-west-2a" else "us-west-2b";
       Subnet.tags := [("name", "my-eks-subnets")] |}) ;;
  ret (Out.id subnet).

(** The document passed to [JSON.stringify] at lines 56-67, for the service
    principal [service]. *)
Definition assumeRoleDocument (service : string) : Json :=
  JObject
    [("Version", JString "2012-10-17");
     ("Statement", JArray
        [JObject
           [("Action", JString "sts:AssumeRole");
            ("Effect", JString "Allow");
            ("Principal", JObject [("Service", JString service)])]])].

(** The document of lines 90-101: the same members, [Principal] written
    before [Effect]. *)
Definition workerAssumeRoleDocument (service : string) : Json :=
  JObject
    [("Version", JString "2012-10-17");
     ("Statement", JArray
        [JObject
           [("Action", JString "sts:AssumeRole");
            ("Principal", JObject [("Service", JString service)]);
            ("Effect", JString "Allow")]])].

(** Lines 136-169, the callback given to [apply]. *)
Definition kubeconfigCallback (clusterName clusterEndpoint : string)
    (clusterCA : CertificateAuthority) : KubeConfig.t :=
  {| KubeConfig.apiVersion := "v1";
     KubeConfig.clusters :=
       [ {| ClusterEntry.cluster :=
              {| ClusterInfo.server := clusterEndpoint;
                 ClusterInfo.certificate_authority_data := data clusterCA |};
            ClusterEntry.name := "kubernetes" |} ];
     KubeConfig.contexts :=
       [ {| ContextEntry.context :=
              {| Context.cluster := "kubernetes"; Context.user := "aws" |};
            ContextEntry.name := "aws" |} ];
     KubeConfig.current_context := "aws";
     KubeConfig.kind := "Config";
     KubeConfig.users :=
       [ {| UserEntry.name := "aws";
            UserEntry.user :=
              {| User.exec :=
                   {| Exec.apiVersion :=
                        "client.authentication.k8s.io/v1alpha1";
                      Exec.command := "aws";
                      Exec.args :=
                        ["eks"; "get-token"; "--cluster-name"; clusterName]
                   |} |} |} ] |}.

Section Script.
Variable config : Config.

(** The whole module body, top to bottom; its value is the list of
    exported bindings in the order of the [export] statements. *)
Definition script : Pulumi (list (string * Exported)) :=
  eksVpc <- new (NewVpc "eks-vpc"
    {| Vpc.tags := [("name", "my-eks-vpc")];
       Vpc.cidrBlock := vpcNetworkCidr config |}) ;;
  privateSubnet <- Array_map
    (fun subnet index => createSubnetAndGetID eksVpc subnet index false)
    privateSubnetCidrBlock ;;
  publicSubnet <- Array_map
    (fun subnet index => createSubnetAndGetID eksVpc subnet index true)
    publicSubnetCidrBlock ;;
  eksClusterRole <- new (NewRole "eks-cluster-role"
    {| Role.assumeRolePolicy := assumeRoleDocument "eks.amazonaws.com" |}) ;;
  new (NewRolePolicyAttachment "cluster-role-policy-attachment"
    {| RolePolicyAttachment.role := Out.name eksClusterRole;
       RolePolicyAttachment.policyArn :=
         "arn:aws:iam::aws:policy/AmazonEKSClusterPolicy" |}) ;;
  eksCluster <- new (NewCluster "eks-cluster"
    {| Cluster.roleArn := Out.arn eksClusterRole;
       Cluster.vpcConfig :=
         {| Cluster.subnetIds := (privateSubnet ++ publicSubnet)%list |};
       Cluster.version := "1.27";
       Cluster.tags := [("name", "my-eks-cluster")] |}) ;;
  workerNodeRole <- new (NewRole "worker-node-role"
    {| Role.assumeRolePolicy :=
         workerAssumeRoleDocument "ec2.amazonaws.com" |}) ;;
  new (NewRolePolicyAttachment "worker-node-policy-attachment"
    {| RolePolicyAttachment.role := Out.name workerNodeRole;
       RolePolicyAttachment.policyArn :=
         "arn:aws:iam::aws:policy/AmazonEKSWorkerNodePolicy" |}) ;;
  new (NewRolePolicyAttachment "cni-policy-attachment"
    {| RolePolicyAttachment.role := Out.name workerNodeRole;
       RolePolicyAttachment.policyArn :=
         "arn:aws:iam::aws:policy/AmazonEKS_CNI_Policy" |}) ;;
  new (NewRolePolicyAttachment "container-registry-policy-attachment"
    {| RolePolicyAttachment.role := Out.name workerNodeRole;
       RolePolicyAttachment.policyArn :=
         "arn:aws:iam::aws:policy/AmazonEC2ContainerRegistryReadOnly" |}) ;;
  new (NewNodeGroup "worker-node-group"
    {| NodeGroup.clusterName := Out.name eksCluster;
       NodeGroup.nodeRoleArn := Out.arn workerNodeRole;
       NodeGroup.subnetIds := (privateSubnet ++ publicSubnet)%list;
       NodeGroup.scalingConfig :=
         {| NodeGroup.desiredSize := desiredClusterSize config;
            NodeGroup.maxSize := maxClusterSize config;
            NodeGroup.minSize := minClusterSize config |};
       NodeGroup.instanceTypes := [eksNodeInstanceType config] |}) ;;
  let kubeconfig :=
    {| inputs := [Out.name eksCluster; Out.endpoint eksCluster;
                  Out.certificateAuthority eksCluster];
       callback := kubeconfigCallback |} in
  ret [("clusterName", ExportOutput (Out.name eksCluster));
       ("clusterArn", ExportOutput (Out.arn eksCluster));
       ("clusterKubeConfig", ExportDerived kubeconfig);
       ("vpcId", ExportOutput (Out.id eksVpc))].

(** The resources the engine holds after the script has run, in
    declaration order, and the module's exports. *)
Definition declared : list Resource := execState script [].
Definition exports : list (string * Exported) := evalState script [].
End Script.

(** ** Address ranges *)

(** Modelled from the spec: the script only passes its address ranges on as
    strings; what such a string denotes is the glossary's "contiguous block
    of network addresses expressed as a base address plus prefix length",
    here the dotted-quad IPv4 notation [a.b.c.d/n]. *)
Record Cidr : Type := { base : Z; prefixLength : Z }.

Definition digitValue (c : ascii) : option Z :=
  let n := nat_of_ascii c in
  if (48 <=? n)%nat && (n <=? 57)%nat then Some (Z.of_nat n - 48)%Z else None.

Fixpoint parseDigits (acc : Z) (s : string) : option Z :=
  match s with
  | EmptyString => Some acc
  | String c rest =>
      match digitValue c with
      | Some d => parseDigits (acc * 10 + d)%Z rest
      | None => None
      end
  end.

(** A non-empty run of decimal digits. *)
Definition parseDecimal (s : string) : option Z :=
  match s with
  | EmptyString => None
  | _ => parseDigits 0%Z s
  end.

(** The pieces of [s] between occurrences of [sep]. *)
Fixpoint splitOn (sep : ascii) (s : string) : list string :=
  match s with
  | EmptyString => [EmptyString]
  | String c rest =>
      if Ascii.eqb c sep then EmptyString :: splitOn sep rest
      else match splitOn sep rest with
           | [] => [String c EmptyString]
           | piece :: pieces => String c piece :: pieces
           end
  end.

Definition octet (s : string) : option Z :=
  match parseDecimal s with
  | Some n => if (n <=? 255)%Z then Some n else None
  | None => None
  end.

(** The 32-bit address [a.b.c.d]. *)
Definition address (a b c d : Z) : Z :=
  Z.lor (Z.shiftl a 24) (Z.lor (Z.shiftl b 16) (Z.lor (Z.shiftl c 8) d)).

(** Modelled from the spec: reading [a.b.c.d/n] as a base address and a
    prefix length; [None] for any other string. *)
Definition parseCidr (s : string) : option Cidr :=
  match splitOn "/" s with
  | [quad; len] =>
      match splitOn "." quad, parseDecimal len with
      | [a; b; c; d], Some n =>
          match octet a, octet b, octet c, octet d with
          | Some a, Some b, Some c, Some d =>
              if (n <=? 32)%Z
              then Some {| base := address a b c d; prefixLength := n |}
              else None
          | _, _, _, _ => None
          end
      | _, _ => None
      end
  | _ => None
  end.

Section Ranges.
Local Open Scope Z_scope.

(** The number of host bits of a block. *)
Definition hostBits (c : Cidr) : Z := 32 - prefixLength c.

(** Modelled from the spec: the first and last address of the block, the
    base address with its host bits cleared and set. *)
Definition firstAddress (c : Cidr) : Z :=
  Z.shiftl (Z.shiftr (base c) (hostBits c)) (hostBits c).
Definition lastAddress (c : Cidr) : Z :=
  Z.lor (firstAddress c) (Z.ones (hostBits c)).

Definition contains (c : Cidr) (x : Z) : Prop :=
  firstAddress c <= x <= lastAddress c.

(** Two blocks share no address. *)
Definition disjoint (a b : Cidr) : Prop :=
  forall x, ~ (contains a x /\ contains b x).

(** Every address of [a] is an address of [b]. *)
Definition within (a b : Cidr) : Prop :=
  forall x, contains a x -> contains b x.

Definition disjointb (a b : Cidr) : bool :=
  (lastAddress a <? firstAddress b) || (lastAddress b <? firstAddress a).

Definition withinb (a b : Cidr) : bool :=
  (firstAddress b <=? firstAddress a) && (lastAddress a <=? lastAddress b).
End Ranges.

(** The same relations on the strings the script handles; a string that is
    not a block is related to nothing. *)
Definition cidrDisjoint (s t : string) : Prop :=
  match parseCidr s, parseCidr t with
  | Some a, Some b => disjoint a b
  | _, _ => False
  end.

Definition cidrWithin (s parent : string) : Prop :=
  match parseCidr s, parseCidr parent with
  | Some a, Some b => within a b
  | _, _ => False
  end.

Definition cidrDisjointb (s t : string) : bool :=
  match parseCidr s, parseCidr t with
  | Some a, Some b => disjointb a b
  | _, _ => false
  end.

Definition cidrWithinb (s parent : string) : bool :=
  match parseCidr s, parseCidr parent with
  | Some a, Some b => withinb a b
  | _, _ => false
  end.

(** The first and last address of the block a string denotes. *)
Definition blockBounds (s : string) : option (Z * Z) :=
  match parseCidr s with
  | Some c => Some (firstAddress c, lastAddress c)
  | None => None
  end.

(** Any two entries at different positions of [l] are related by [R]. *)
Definition pairwise {A : Type} (R : A -> A -> Prop) (l : list A) : Prop :=
  forall i j x y,
    i <> j -> nth_error l i = Some x -> nth_error l j = Some y -> R x y.

(** ** Reading the declared resources *)

Definition subnetsOf (rs : list Resource) : list (string * Subnet.Args) :=
  flat_map (fun r => match r with NewSubnet n a => [(n, a)] | _ => [] end) rs.

Definition attachmentsOf (rs : list Resource)
    : list (string * RolePolicyAttachment.Args) :=
  flat_map
    (fun r => match r with NewRolePolicyAttachment n a => [(n, a)] | _ => [] end)
    rs.

Definition clustersOf (rs : list Resource) : list (string * Cluster.Args) :=
  flat_map (fun r => match r with NewCluster n a => [(n, a)] | _ => [] end) rs.

Definition nodeGroupsOf (rs : list Resource) : list (string * NodeGroup.Args) :=
  flat_map (fun r => match r with NewNodeGroup n a => [(n, a)] | _ => [] end) rs.

Definition Kind_eqb (a b : Kind) : bool :=
  match a, b with
  | KVpc, KVpc | KSubnet, KSubnet | KRole, KRole
  | KRolePolicyAttachment, KRolePolicyAttachment
  | KCluster, KCluster | KNodeGroup, KNodeGroup => true
  | _, _ => false
  end.

(** How many declared resources are of kind [k]. *)
Definition kindCount (k : Kind) (rs : list Resource) : nat :=
  length (filter (fun r => Kind_eqb (kindOf r) k) rs).

(** The subnets declared with [mapPublicIpOnLaunch] equal to [isPublic], in
    declaration order: the public list for [true], the private for [false]. *)
Definition subnetList (isPublic : bool) (rs : list Resource)
    : list (string * Subnet.Args) :=
  filter (fun s => Bool.eqb (Subnet.mapPublicIpOnLaunch (snd s)) isPublic)
    (subnetsOf rs).

(** The availability zones of one of the two subnet lists, in order. *)
Definition zonesOf (isPublic : bool) (rs : list Resource) : list string :=
  map (fun s => Subnet.availabilityZone (snd s)) (subnetList isPublic rs).

(** The subnets a mapping over [ranges] declares, the first one at position
    [index]. *)
Fixpoint subnetsFrom (eksVpc : Resource) (isPublic : bool) (index : nat)
    (ranges : list string) : list Resource :=
  match ranges with
  | [] => []
  | cidrRange :: rest =>
      NewSubnet (subnetName isPublic index)
        {| Subnet.vpcId := Out.id eksVpc;
           Subnet.cidrBlock := cidrRange;
           Subnet.mapPublicIpOnLaunch := isPublic;
           Subnet.availabilityZone :=
             if zoneCondition index then "us-west-2a" else "us-west-2b";
           Subnet.tags := [("name", "my-eks-subnets")] |}
      :: subnetsFrom eksVpc isPublic (S index) rest
  end.

(** The attachments whose [role] is the name of the role declared as
    [roleName]. *)
Definition attachmentsTo (roleName : string) (rs : list Resource)
    : list (string * RolePolicyAttachment.Args) :=
  filter (fun a => String.eqb (owner (RolePolicyAttachment.role (snd a))) roleName)
    (attachmentsOf rs).

(** The value an object literal binds to [key], the first binding winning. *)
Fixpoint lookup {A : Type} (key : string) (bindings : list (string * A))
    : option A :=
  match bindings with
  | [] => None
  | (k, v) :: rest => if String.eqb k key then Some v else lookup key rest
  end.

(** A configuration given by the values set for its numeric and string
    keys. *)
Definition configOf (numbers : list (string * number))
    (strings : list (string * string)) : Config :=
  {| get := fun key => lookup key strings;
     getNumber := fun key => lookup key numbers |}.

(** Every sizing key set to 0 and every string key set to the empty
    string. *)
Definition falsyConfig : Config :=
  configOf
    [("minClusterSize", 0%float); ("maxClusterSize", 0%float);
     ("desiredClusterSize", 0%float)]
    [("eksNodeInstanceType", ""); ("vpcNetworkCidr", "")].



(** A parent network that holds none of the subnet ranges. *)
Definition otherNetworkConfig : Config :=
  configOf [] [("vpcNetworkCidr", "192.168.0.0/16")].

(** The [id] output of the subnet declared under [name]. *)
Definition subnetId (name : string) : Output :=
  {| kind := KSubnet; owner := name; property := "id" |}.

(** ** References between resources *)

(** The outputs of other resources that the arguments of [r] mention. *)
Definition references (r : Resource) : list Output :=
  match r with
  | NewVpc _ _ => []
  | NewSubnet _ a => [Subnet.vpcId a]
  | NewRole _ _ => []
  | NewRolePolicyAttachment _ a => [RolePolicyAttachment.role a]
  | NewCluster _ a =>
      Cluster.roleArn a :: Cluster.subnetIds (Cluster.vpcConfig a)
  | NewNodeGroup _ a =>
      NodeGroup.clusterName a :: NodeGroup.nodeRoleArn a
        :: NodeGroup.subnetIds a
  end.


(** [o] is an attribute of one of the resources [rs]. *)
Definition Resolves (rs : list Resource) (o : Output) : Prop :=
  exists r, In r rs /\ kindOf r = kind o /\ logicalName r = owner o.


(** Every resource mentions only resources declared before it. *)
Inductive WellScoped : list Resource -> Prop :=
  | WellScoped_nil : WellScoped []
  | WellScoped_snoc (rs : list Resource) (r : Resource) :
      WellScoped rs -> Forall (Resolves rs) (references r) ->
      WellScoped (rs ++ [r]).


(** No string occurs twice in [names]. *)
Fixpoint distinctb (names : list string) : bool :=
  match names with
  | [] => true
  | n :: rest => negb (existsb (String.eqb n) rest) && distinctb rest
  end.

Definition vpcsOf (rs : list Resource) : list (string * Vpc.Args) :=
  flat_map (fun r => match r with NewVpc n a => [(n, a)] | _ => [] end) rs.

(** The zones a mapping over [count] ranges assigns when the condition of
    line 38 holds at position 0 only. *)
Definition firstZoneOnly (count : nat) : list string :=
  match count with
  | O => []
  | S others => "us-west-2a" :: repeat "us-west-2b" others
  end.

(** The positions at which the condition of line 38 has been evaluated. *)
Definition zoneBound : nat := 4096.

(** A configuration that only sets a key the script never reads. *)
Definition unrelatedKeyConfig : Config :=
  configOf [("nodeDiskSize", 50%float)] [("region", "eu-west-1")].

(** ** Configuration defaults *)

Section LogicalOr.
Context {A : Type} `{ToBoolean A}.

Lemma logical_or_undefined (d : A) :
  logical_or None d = d.
Proof. reflexivity. Qed.

Lemma logical_or_falsy (v d : A) :
  toBoolean v = false -> logical_or (Some v) d = d.
Proof. intros Hv. unfold logical_or. now rewrite Hv. Qed.

End LogicalOr.

(** Zero of either sign and NaN are falsy. *)
Lemma falsy_numbers :
  toBoolean 0%float = false /\ toBoolean (-0)%float = false
  /\ toBoolean PrimFloat.nan = false.
Proof. repeat split. Qed.

Lemma falsy_string (s : string) : toBoolean s = false <-> s = "".
Proof.
  unfold toBoolean, ToBoolean_string.
  destruct (String.eqb_spec s ""); simpl; split; congruence.
Qed.

(** C6: when a configuration key is absent, the script uses the default:
    [minClusterSize] 3, [maxClusterSize] 6, [desiredClusterSize] 3,
    [eksNodeInstanceType] ['t3.medium'] and [vpcNetworkCidr] ['10.0.0.0/16'],
    which denotes a block of prefix length 16 inside the private block
    10.0.0.0/8. *)
Theorem defaults_for_absent_keys (config : Config) :
  (getNumber config "minClusterSize" = None ->
     minClusterSize config = 3%float)
  /\ (getNumber config "maxClusterSize" = None ->
        maxClusterSize config = 6%float)
  /\ (getNumber config "desiredClusterSize" = None ->
        desiredClusterSize config = 3%float)
  /\ (get config "eksNodeInstanceType" = None ->
        eksNodeInstanceType config = "t3.medium")
  /\ (get config "vpcNetworkCidr" = None ->
        vpcNetworkCidr config = "10.0.0.0/16"
        /\ exists block,
             parseCidr (vpcNetworkCidr config) = Some block
             /\ prefixLength block = 16%Z
             /\ withinb block
                  {| base := address 10 0 0 0; prefixLength := 8 |} = true).
Proof.
  unfold minClusterSize, maxClusterSize, desiredClusterSize,
    eksNodeInstanceType, vpcNetworkCidr.
  repeat apply conj; intros Habsent; rewrite Habsent;
    try apply logical_or_undefined.
  rewrite logical_or_undefined.
  split; [reflexivity | eexists; repeat split].
Qed.

(** With no key configured, every value is its default. *)
Lemma defaults_for_absent_keys_witness :
  minClusterSize emptyConfig = 3%float
  /\ maxClusterSize emptyConfig = 6%float
  /\ desiredClusterSize emptyConfig = 3%float
  /\ eksNodeInstanceType emptyConfig = "t3.medium"
  /\ vpcNetworkCidr emptyConfig = "10.0.0.0/16".
Proof.
  destruct (defaults_for_absent_keys emptyConfig)
    as (Hmin & Hmax & Hdesired & Htype & Hcidr).
  repeat apply conj;
    [apply Hmin | apply Hmax | apply Hdesired | apply Htype
    | apply Hcidr]; reflexivity.
Defined.

(** C9: a configured value that is falsy is replaced by the default, because
    the defaulting is [value || default]: a sizing key set to 0 (or any falsy
    number) yields 3, 6 and 3, and [eksNodeInstanceType] or [vpcNetworkCidr]
    set to the empty string yields ['t3.medium'] or ['10.0.0.0/16']. *)
Theorem falsy_values_replaced_by_defaults (config : Config) :
  (forall v, getNumber config "minClusterSize" = Some v ->
     toBoolean v = false -> minClusterSize config = 3%float)
  /\ (forall v, getNumber config "maxClusterSize" = Some v ->
        toBoolean v = false -> maxClusterSize config = 6%float)
  /\ (forall v, getNumber config "desiredClusterSize" = Some v ->
        toBoolean v = false -> desiredClusterSize config = 3%float)
  /\ (get config "eksNodeInstanceType" = Some "" ->
        eksNodeInstanceType config = "t3.medium")
  /\ (get config "vpcNetworkCidr" = Some "" ->
        vpcNetworkCidr config = "10.0.0.0/16")
  /\ toBoolean 0%float = false.
Proof.
  unfold minClusterSize, maxClusterSize, desiredClusterSize,
    eksNodeInstanceType, vpcNetworkCidr.
  repeat apply conj; try reflexivity.
  1-3: intros v Hset Hfalsy; rewrite Hset; now apply logical_or_falsy.
  all: intros Hset; rewrite Hset; apply logical_or_falsy;
    now apply falsy_string.
Qed.

(** The three sizing keys set to 0 and the two string keys set to the empty
    string give exactly the defaults. *)
Lemma falsy_values_replaced_by_defaults_witness :
  minClusterSize falsyConfig = 3%float
  /\ maxClusterSize falsyConfig = 6%float
  /\ desiredClusterSize falsyConfig = 3%float
  /\ eksNodeInstanceType falsyConfig = "t3.medium"
  /\ vpcNetworkCidr falsyConfig = "10.0.0.0/16".
Proof.
  destruct (falsy_values_replaced_by_defaults falsyConfig)
    as (Hmin & Hmax & Hdesired & Htype & Hcidr & Hzero).
  repeat apply conj;
    [ apply (Hmin 0%float) | apply (Hmax 0%float) | apply (Hdesired 0%float)
    | apply Htype | apply Hcidr ];
    solve [reflexivity | exact Hzero].
Defined.

(** ** Sizing *)





(** ** Subnets and availability zones *)

Section Subnets.
Variables (eksVpc : Resource) (isPublic : bool).

(** One call declares one subnet, after everything declared before, and
    returns that subnet's [id]. *)
Lemma createSubnetAndGetID_run cidrRange index declaredBefore :
  runState (createSubnetAndGetID eksVpc cidrRange index isPublic)
    declaredBefore
  = (subnetId (subnetName isPublic index),
     (declaredBefore ++ subnetsFrom eksVpc isPublic index [cidrRange])%list).
Proof. reflexivity. Qed.

(** Running [c] and then [k] from the state [s]. *)
Lemma runState_bind {A B : Type} (c : Pulumi A) (k : A -> Pulumi B)
    (s : list Resource) :
  runState (bind c k) s = runState (k (fst (runState c s))) (snd (runState c s)).
Proof. cbn. now destruct (runState c s). Qed.

(** Mapping over a list of ranges declares one subnet per range, in list
    order, and yields their [id]s in the same order. *)
Lemma map_from_run ranges : forall index declaredBefore,
  runState
    (map_from
       (fun subnet i => createSubnetAndGetID eksVpc subnet i isPublic)
       index ranges)
    declaredBefore
  = (map (fun i => subnetId (subnetName isPublic i))
       (seq index (length ranges)),
     (declaredBefore ++ subnetsFrom eksVpc isPublic index ranges)%list).
Proof.
  induction ranges as [| cidrRange rest IH]; intros index declaredBefore.
  - cbn. now rewrite app_nil_r.
  - cbn [map_from length seq map subnetsFrom].
    rewrite runState_bind, createSubnetAndGetID_run. cbn [fst snd].
    rewrite runState_bind, IH. cbn [fst snd subnetsFrom app].
    now rewrite <- app_assoc.
Qed.
End Subnets.

(** The condition on the three positions of a subnet list: the quotients
    are 0, 0.5 and 1, and only the first equals 0. *)
Lemma zoneCondition_values :
  map (fun index => (number_of_nat index / 2)%float) [0; 1; 2]
    = [0%float; 0.5%float; 1%float]
  /\ zoneCondition 0 = true
  /\ zoneCondition 1 = false
  /\ zoneCondition 2 = false.
Proof. repeat apply conj; reflexivity. Qed.

(** The zones of either list, for every configuration. *)
Lemma zonesOf_declared (config : Config) (isPublic : bool) :
  zonesOf isPublic (declared config)
    = ["us-west-2a"; "us-west-2b"; "us-west-2b"].
Proof. destruct isPublic; reflexivity. Qed.

(** C1, as the code has it: [index / 2 == 0] is true at index 0 and false at
    indices 1 and 2, so of the six subnets [private-subnet-0] and
    [public-subnet-0] are placed in ['us-west-2a'] and the other four in
    ['us-west-2b']. *)
Theorem zones_of_the_six_subnets (config : Config) :
  map zoneCondition (seq 0 3) = [true; false; false]
  /\ map (fun s => (fst s, Subnet.availabilityZone (snd s)))
       (subnetsOf (declared config))
     = [("private-subnet-0", "us-west-2a");
        ("private-subnet-1", "us-west-2b");
        ("private-subnet-2", "us-west-2b");
        ("public-subnet-0", "us-west-2a");
        ("public-subnet-1", "us-west-2b");
        ("public-subnet-2", "us-west-2b")].
Proof. split; reflexivity. Qed.

(** C1 as stated fails at index 1: the condition is false there and the
    second subnet of each list is not in ['us-west-2a']. *)
Lemma zone_at_index_1_is_not_2a :
  zoneCondition 1 <> true
  /\ nth_error (zonesOf false (declared emptyConfig)) 1 <> Some "us-west-2a"
  /\ nth_error (zonesOf true (declared emptyConfig)) 1 <> Some "us-west-2a".
Proof.
  pose proof zoneCondition_values as (_ & _ & Hone & _).
  rewrite !zonesOf_declared. cbn [nth_error].
  repeat apply conj; congruence.
Qed.

(** C8: [/] does not truncate, so at every position of a subnet list the
    condition [index / 2 == 0] holds exactly when the position is 0 (1 / 2
    is 0.5); in the private and in the public list the subnet at index 0 is
    in ['us-west-2a'] and those at indices 1 and 2 are in ['us-west-2b']. *)
Theorem only_index_0_selects_2a (config : Config) (index : nat)
    (Hindex : index < 3) :
  (zoneCondition index = true <-> index = 0)
  /\ (number_of_nat 1 / 2)%float = 0.5%float
  /\ nth_error (zonesOf false (declared config)) index
     = Some (if (index =? 0)%nat then "us-west-2a" else "us-west-2b")
  /\ nth_error (zonesOf true (declared config)) index
     = Some (if (index =? 0)%nat then "us-west-2a" else "us-west-2b").
Proof.
  rewrite !zonesOf_declared.
  destruct zoneCondition_values as (_ & Hzero & Hone & Htwo).
  destruct index as [| [| [| index]]]; [ | | | lia].
  - rewrite Hzero. now repeat apply conj.
  - rewrite Hone. repeat apply conj; try reflexivity; intros H; discriminate H.
  - rewrite Htwo. repeat apply conj; try reflexivity; intros H; discriminate H.
Qed.

(** At index 1 the condition is false and both lists place the subnet in
    ['us-west-2b']. *)
Lemma only_index_0_selects_2a_witness :
  zoneCondition 1 <> true
  /\ nth_error (zonesOf false (declared emptyConfig)) 1 = Some "us-west-2b"
  /\ nth_error (zonesOf true (declared emptyConfig)) 1 = Some "us-west-2b".
Proof.
  assert (Hindex : 1 < 3) by lia.
  destruct (only_index_0_selects_2a emptyConfig 1 Hindex)
    as (Hcond & _ & Hprivate & Hpublic).
  repeat apply conj; trivial.
  intros Htrue. apply Hcond in Htrue. discriminate.
Defined.

(** ** The declared resources *)

(** The script declares, in this order: the network, the private subnets,
    the public subnets, the control-plane role with its attachment, the
    cluster, the worker role with its attachments, and the node group. *)
Lemma declared_kinds (config : Config) :
  map kindOf (declared config)
    = [KVpc; KSubnet; KSubnet; KSubnet; KSubnet; KSubnet; KSubnet;
       KRole; KRolePolicyAttachment; KCluster;
       KRole; KRolePolicyAttachment; KRolePolicyAttachment;
       KRolePolicyAttachment; KNodeGroup].
Proof. reflexivity. Qed.

(** Every resource is of exactly one kind, so the six counts add up to the
    number of resources. *)
Lemma kindCount_total (rs : list Resource) :
  kindCount KVpc rs + kindCount KSubnet rs + kindCount KRole rs
  + kindCount KRolePolicyAttachment rs + kindCount KCluster rs
  + kindCount KNodeGroup rs = length rs.
Proof.
  unfold kindCount.
  induction rs as [| r rs IH]; [reflexivity |].
  cbn [filter length]. destruct r; cbn [kindOf Kind_eqb length]; lia.
Qed.

(** Counting by kind only looks at the kinds. *)
Lemma kindCount_kinds (k : Kind) (rs : list Resource) :
  kindCount k rs
  = length (filter (fun k' => Kind_eqb k' k) (map kindOf rs)).
Proof.
  unfold kindCount. induction rs as [| r rs IH]; [reflexivity |].
  cbn [filter map].
  destruct (Kind_eqb (kindOf r) k); cbn [length]; now rewrite IH.
Qed.

(** Four attachments are declared, whatever the configuration. *)
Lemma attachments_count (config : Config) :
  kindCount KRolePolicyAttachment (declared config) = 4.
Proof. now rewrite kindCount_kinds, declared_kinds. Qed.

(** A mapping over [ranges] declares [length ranges] subnets, all with the
    flag [isPublic]. *)
Lemma subnetsFrom_flag eksVpc isPublic ranges : forall index,
  map (fun s => Subnet.mapPublicIpOnLaunch (snd s))
    (subnetsOf (subnetsFrom eksVpc isPublic index ranges))
  = repeat isPublic (length ranges).
Proof.
  induction ranges as [| cidrRange rest IH]; intros index; [reflexivity |].
  cbn [subnetsFrom subnetsOf flat_map app map snd length repeat
       Subnet.mapPublicIpOnLaunch].
  f_equal. apply IH.
Qed.

(** C5, as the code has it: the script declares one network, six subnets
    (three private with [mapPublicIpOnLaunch] false, three public with it
    true), two roles, four role-policy attachments (one on the control-plane
    role, three on the worker role), one cluster and one node group, fifteen
    resources in all. *)
Theorem resources_declared (config : Config) :
  let rs := declared config in
  kindCount KVpc rs = 1
  /\ kindCount KSubnet rs = 6
  /\ map (fun s => (fst s, Subnet.mapPublicIpOnLaunch (snd s))) (subnetsOf rs)
     = [("private-subnet-0", false); ("private-subnet-1", false);
        ("private-subnet-2", false); ("public-subnet-0", true);
        ("public-subnet-1", true); ("public-subnet-2", true)]
  /\ kindCount KRole rs = 2
  /\ kindCount KRolePolicyAttachment rs = 4
  /\ map fst (attachmentsTo "eks-cluster-role" rs)
     = ["cluster-role-policy-attachment"]
  /\ map fst (attachmentsTo "worker-node-role" rs)
     = ["worker-node-policy-attachment"; "cni-policy-attachment";
        "container-registry-policy-attachment"]
  /\ kindCount KCluster rs = 1
  /\ kindCount KNodeGroup rs = 1
  /\ length rs = 15.
Proof.
  intros rs.
  rewrite <- (kindCount_total rs), !kindCount_kinds.
  subst rs. rewrite declared_kinds.
  repeat apply conj; reflexivity.
Qed.

(** C5 as stated fails: the attachments are not three in total. *)
Lemma attachments_are_not_three :
  kindCount KRolePolicyAttachment (declared emptyConfig) <> 3.
Proof.
  rewrite attachments_count. discriminate.
Qed.

(** C10: the cluster's [vpcConfig.subnetIds] and the node group's
    [subnetIds] are the same list: the ids of the three private subnets in
    declaration order, then those of the three public subnets in declaration
    order. *)
Theorem cluster_and_nodeGroup_subnetIds (config : Config) :
  exists clusterArgs groupArgs,
    clustersOf (declared config) = [("eks-cluster", clusterArgs)]
    /\ nodeGroupsOf (declared config) = [("worker-node-group", groupArgs)]
    /\ Cluster.subnetIds (Cluster.vpcConfig clusterArgs)
       = NodeGroup.subnetIds groupArgs
    /\ NodeGroup.subnetIds groupArgs
       = (map (fun s => subnetId (fst s))
            (subnetList false (declared config))
          ++ map (fun s => subnetId (fst s))
               (subnetList true (declared config)))%list
    /\ NodeGroup.subnetIds groupArgs
       = [subnetId "private-subnet-0"; subnetId "private-subnet-1";
          subnetId "private-subnet-2"; subnetId "public-subnet-0";
          subnetId "public-subnet-1"; subnetId "public-subnet-2"].
Proof. do 2 eexists. repeat apply conj; reflexivity. Qed.

(** ** Exports and the client configuration *)

(** The export [clusterKubeConfig] is the derived output whose callback is
    [kubeconfigCallback], fed with the cluster's name, endpoint and
    certificate authority. *)
Lemma clusterKubeConfig_exported (config : Config) :
  lookup "clusterKubeConfig" (exports config)
  = Some (ExportDerived
      {| inputs :=
           [ {| kind := KCluster; owner := "eks-cluster";
                property := "name" |};
             {| kind := KCluster; owner := "eks-cluster";
                property := "endpoint" |};
             {| kind := KCluster; owner := "eks-cluster";
                property := "certificateAuthority" |} ];
         callback := kubeconfigCallback |}).
Proof. reflexivity. Qed.

(** C3: for every resolved cluster name, endpoint and certificate-authority
    data, the generated kubeconfig has exactly one entry in [clusters],
    exactly one in [contexts], and its ['current-context'] is the name of
    that one context, ['aws']. *)
Theorem kubeconfig_one_cluster_one_context (config : Config)
    (clusterName clusterEndpoint : string) (clusterCA : CertificateAuthority) :
  exists document,
    lookup "clusterKubeConfig" (exports config) = Some (ExportDerived document)
    /\ let kubeconfig :=
         callback document clusterName clusterEndpoint clusterCA in
       length (KubeConfig.clusters kubeconfig) = 1
       /\ (exists context,
             KubeConfig.contexts kubeconfig = [context]
             /\ KubeConfig.current_context kubeconfig
                = ContextEntry.name context)
       /\ KubeConfig.current_context kubeconfig = "aws".
Proof.
  eexists. split; [apply clusterKubeConfig_exported |].
  cbn. repeat apply conj; trivial. now eexists.
Qed.

(** C7: the module exports exactly four values: [clusterName], the cluster's
    name; [clusterArn], the cluster's ARN; [clusterKubeConfig], the generated
    document, whose single user entry runs the [aws eks get-token] exec
    plugin with the cluster name as last argument and whose single cluster
    entry carries the endpoint as [server] and the certificate-authority
    data; and [vpcId], the network's id. *)
Theorem four_exports (config : Config) :
  exists document,
    exports config
    = [("clusterName",
        ExportOutput
          {| kind := KCluster; owner := "eks-cluster"; property := "name" |});
       ("clusterArn",
        ExportOutput
          {| kind := KCluster; owner := "eks-cluster"; property := "arn" |});
       ("clusterKubeConfig", ExportDerived document);
       ("vpcId",
        ExportOutput
          {| kind := KVpc; owner := "eks-vpc"; property := "id" |})]
    /\ inputs document
       = [ {| kind := KCluster; owner := "eks-cluster"; property := "name" |};
           {| kind := KCluster; owner := "eks-cluster";
              property := "endpoint" |};
           {| kind := KCluster; owner := "eks-cluster";
              property := "certificateAuthority" |} ]
    /\ forall clusterName clusterEndpoint clusterCA,
         let kubeconfig :=
           callback document clusterName clusterEndpoint clusterCA in
         KubeConfig.users kubeconfig
         = [ {| UserEntry.name := "aws";
                UserEntry.user :=
                  {| User.exec :=
                       {| Exec.apiVersion :=
                            "client.authentication.k8s.io/v1alpha1";
                          Exec.command := "aws";
                          Exec.args :=
                            ["eks"; "get-token"; "--cluster-name";
                             clusterName] |} |} |} ]
         /\ KubeConfig.clusters kubeconfig
            = [ {| ClusterEntry.cluster :=
                     {| ClusterInfo.server := clusterEndpoint;
                        ClusterInfo.certificate_authority_data :=
                          data clusterCA |};
                   ClusterEntry.name := "kubernetes" |} ].
Proof.
  eexists. split; [reflexivity |]. split; [reflexivity |].
  intros clusterName clusterEndpoint clusterCA. split; reflexivity.
Qed.

(** ** Address ranges of the subnets *)

Section RangeFacts.
Local Open Scope Z_scope.

(** The host bits of the first address are clear, so setting them adds
    [2 ^ hostBits - 1]: a block of prefix length [n] has [2 ^ (32 - n)]
    addresses. *)
Lemma lastAddress_size (c : Cidr) :
  0 <= hostBits c ->
  lastAddress c = firstAddress c + 2 ^ hostBits c - 1.
Proof.
  intros Hbits. unfold lastAddress.
  pose proof (Z.add_lor_land (firstAddress c) (Z.ones (hostBits c)))
    as Hsum.
  assert (Hclear : Z.land (firstAddress c) (Z.ones (hostBits c)) = 0).
  { apply Z.bits_inj'. intros i Hi.
    rewrite Z.land_spec, Z.bits_0. unfold firstAddress.
    destruct (Z.ltb_spec i (hostBits c)) as [Hlow | Hhigh].
    - now rewrite Z.shiftl_spec_low.
    - rewrite Z.ones_spec_high by lia. apply andb_false_r. }
  rewrite Hclear in Hsum. rewrite Z.ones_equiv in Hsum |- *. lia.
Qed.

(** A block is never empty. *)
Lemma block_nonempty (c : Cidr) :
  0 <= hostBits c -> contains c (firstAddress c).
Proof.
  intros Hbits. unfold contains. rewrite lastAddress_size by assumption.
  assert (0 < 2 ^ hostBits c) by (apply Z.pow_pos_nonneg; lia). lia.
Qed.

Lemma disjointb_sound (a b : Cidr) :
  disjointb a b = true -> disjoint a b.
Proof.
  unfold disjointb, disjoint, contains. intros Hcheck x [Ha Hb].
  apply orb_true_iff in Hcheck. destruct Hcheck as [Hlt | Hlt];
    apply Z.ltb_lt in Hlt; lia.
Qed.

Lemma disjoint_sym (a b : Cidr) : disjoint a b -> disjoint b a.
Proof. unfold disjoint. intros Hab x [Hb Ha]. now apply (Hab x). Qed.

(** Containment of a non-empty block is containment of its two ends. *)
Lemma within_bounds (a b : Cidr) :
  firstAddress a <= lastAddress a ->
  within a b <->
  firstAddress b <= firstAddress a /\ lastAddress a <= lastAddress b.
Proof.
  intros Hne. unfold within, contains. split.
  - intros Hsub.
    pose proof (Hsub (firstAddress a)). pose proof (Hsub (lastAddress a)).
    lia.
  - intros Hends x Hx. lia.
Qed.

Lemma withinb_sound (a b : Cidr) : withinb a b = true -> within a b.
Proof.
  unfold withinb, within, contains. intros Hcheck x Hx.
  apply andb_true_iff in Hcheck. destruct Hcheck as [Hlo Hhi].
  apply Z.leb_le in Hlo, Hhi. lia.
Qed.
End RangeFacts.

Lemma cidrDisjointb_sound (s t : string) :
  cidrDisjointb s t = true -> cidrDisjoint s t.
Proof.
  unfold cidrDisjointb, cidrDisjoint.
  destruct (parseCidr s), (parseCidr t); try discriminate.
  apply disjointb_sound.
Qed.

Lemma cidrDisjoint_sym (s t : string) : cidrDisjoint s t -> cidrDisjoint t s.
Proof.
  unfold cidrDisjoint.
  destruct (parseCidr s), (parseCidr t); trivial. apply disjoint_sym.
Qed.

Lemma cidrWithinb_sound (s parent : string) :
  cidrWithinb s parent = true -> cidrWithin s parent.
Proof.
  unfold cidrWithinb, cidrWithin.
  destruct (parseCidr s), (parseCidr parent); try discriminate.
  apply withinb_sound.
Qed.

(** ** The parser only yields well-formed blocks *)

Lemma digitValue_range (c : ascii) (d : Z) :
  digitValue c = Some d -> (0 <= d <= 9)%Z.
Proof.
  unfold digitValue.
  destruct (48 <=? nat_of_ascii c)%nat eqn:Hlow;
    destruct (nat_of_ascii c <=? 57)%nat eqn:Hhigh; try discriminate.
  cbn [andb]. intros [= <-].
  apply Nat.leb_le in Hlow, Hhigh. lia.
Qed.

Lemma parseDigits_nonneg (s : string) : forall acc n,
  (0 <= acc)%Z -> parseDigits acc s = Some n -> (0 <= n)%Z.
Proof.
  induction s as [| c rest IH]; intros acc n Hacc; cbn [parseDigits].
  - now intros [= <-].
  - destruct (digitValue c) as [d |] eqn:Hd; [| discriminate].
    apply digitValue_range in Hd. apply IH. lia.
Qed.

Lemma parseDecimal_nonneg (s : string) (n : Z) :
  parseDecimal s = Some n -> (0 <= n)%Z.
Proof.
  unfold parseDecimal. destruct s; [discriminate |].
  apply parseDigits_nonneg. lia.
Qed.

(** A parsed block has a prefix length between 0 and 32. *)
Lemma parseCidr_prefixLength (s : string) (block : Cidr) :
  parseCidr s = Some block -> (0 <= prefixLength block <= 32)%Z.
Proof.
  unfold parseCidr.
  destruct (splitOn "/" s) as [| quad [| len [| ? ?]]]; try discriminate.
  destruct (splitOn "." quad) as [| a [| b [| c [| d [| ? ?]]]]];
    try discriminate.
  destruct (parseDecimal len) as [n |] eqn:Hlen; [| discriminate].
  destruct (octet a), (octet b), (octet c), (octet d); try discriminate.
  destruct (n <=? 32)%Z eqn:Hmax; [| discriminate].
  intros [= <-]. cbn [prefixLength].
  apply parseDecimal_nonneg in Hlen. apply Z.leb_le in Hmax. lia.
Qed.

(** Hence a parsed block holds at least its first address. *)
Lemma parsed_block_nonempty (s : string) (block : Cidr) :
  parseCidr s = Some block -> (firstAddress block <= lastAddress block)%Z.
Proof.
  intros Hparse. apply parseCidr_prefixLength in Hparse.
  apply block_nonempty. unfold hostBits. lia.
Qed.

(** Containment in a parent block, for a string whose block runs from [lo]
    to [hi]. *)
Lemma cidrWithin_bounds (s parent : string) (lo hi : Z) (block : Cidr) :
  blockBounds s = Some (lo, hi) ->
  parseCidr parent = Some block ->
  cidrWithin s parent <->
  (firstAddress block <= lo /\ hi <= lastAddress block)%Z.
Proof.
  unfold blockBounds, cidrWithin. intros Hbounds Hparent.
  rewrite Hparent. destruct (parseCidr s) as [a |] eqn:Hs; [| discriminate].
  injection Hbounds as <- <-.
  apply within_bounds. eapply parsed_block_nonempty, Hs.
Qed.

(** Extending a pairwise-related list at the front. *)
Lemma pairwise_cons {A : Type} (R : A -> A -> Prop) (x : A) (l : list A) :
  (forall a b, R a b -> R b a) ->
  (forall y, In y l -> R x y) ->
  pairwise R l -> pairwise R (x :: l).
Proof.
  intros Hsym Hhead Htail i j a b Hij Hi Hj.
  destruct i as [| i], j as [| j]; cbn [nth_error] in Hi, Hj.
  - congruence.
  - injection Hi as <-. apply Hhead. eapply nth_error_In; eassumption.
  - injection Hj as <-. apply Hsym, Hhead. eapply nth_error_In; eassumption.
  - apply (Htail i j); auto.
Qed.

Lemma pairwise_nil {A : Type} (R : A -> A -> Prop) : pairwise R [].
Proof. intros [| i] j a b _ Hi; discriminate Hi. Qed.

(** Where each of the six subnet ranges begins and ends. *)
Lemma subnet_block_bounds :
  blockBounds "10.0.1.0/24" = Some (address 10 0 1 0, address 10 0 1 255)
  /\ blockBounds "10.0.2.0/24" = Some (address 10 0 2 0, address 10 0 2 255)
  /\ blockBounds "10.0.3.0/24" = Some (address 10 0 3 0, address 10 0 3 255)
  /\ blockBounds "10.0.101.0/24"
     = Some (address 10 0 101 0, address 10 0 101 255)
  /\ blockBounds "10.0.102.0/24"
     = Some (address 10 0 102 0, address 10 0 102 255)
  /\ blockBounds "10.0.103.0/24"
     = Some (address 10 0 103 0, address 10 0 103 255).
Proof. repeat apply conj; vm_compute; reflexivity. Qed.

(** The six ranges, in the order private then public. *)
Lemma subnet_ranges_pairwise_disjoint :
  pairwise cidrDisjoint (privateSubnetCidrBlock ++ publicSubnetCidrBlock).
Proof.
  unfold privateSubnetCidrBlock, publicSubnetCidrBlock. cbn [app].
  repeat
    (apply pairwise_cons;
     [ exact cidrDisjoint_sym
     | intros y Hy; cbn [In] in Hy;
       repeat (destruct Hy as [<- | Hy];
               [apply cidrDisjointb_sound; vm_compute; reflexivity |]);
       contradiction
     | ]).
  apply pairwise_nil.
Qed.

(** All six ranges lie in the default network block. *)
Lemma subnet_ranges_within_default :
  Forall (fun s => cidrWithin s "10.0.0.0/16")
    (privateSubnetCidrBlock ++ publicSubnetCidrBlock).
Proof.
  unfold privateSubnetCidrBlock, publicSubnetCidrBlock. cbn [app].
  repeat (apply Forall_cons;
          [apply cidrWithinb_sound; vm_compute; reflexivity |]).
  apply Forall_nil.
Qed.

(** C4, as the code has it: the six subnet ranges are pairwise disjoint;
    they are contained in [vpcNetworkCidr] when it has its default value
    ['10.0.0.0/16'], and in a configured block exactly when that block
    covers the addresses 10.0.1.0 through 10.0.103.255. *)
Theorem subnet_ranges_disjoint_and_within (config : Config) :
  let ranges := (privateSubnetCidrBlock ++ publicSubnetCidrBlock)%list in
  pairwise cidrDisjoint ranges
  /\ (vpcNetworkCidr config = "10.0.0.0/16" ->
        Forall (fun s => cidrWithin s (vpcNetworkCidr config)) ranges)
  /\ (forall parent, parseCidr (vpcNetworkCidr config) = Some parent ->
        Forall (fun s => cidrWithin s (vpcNetworkCidr config)) ranges
        <-> (firstAddress parent <= address 10 0 1 0
             /\ address 10 0 103 255 <= lastAddress parent)%Z).
Proof.
  intros ranges. repeat apply conj.
  - apply subnet_ranges_pairwise_disjoint.
  - intros ->. apply subnet_ranges_within_default.
  - intros parent Hparent.
    destruct subnet_block_bounds as (B1 & B2 & B3 & B4 & B5 & B6).
    unfold ranges, privateSubnetCidrBlock, publicSubnetCidrBlock.
    cbn [app]. rewrite !Forall_cons_iff, Forall_nil_iff.
    rewrite (cidrWithin_bounds _ _ _ _ _ B1 Hparent),
      (cidrWithin_bounds _ _ _ _ _ B2 Hparent),
      (cidrWithin_bounds _ _ _ _ _ B3 Hparent),
      (cidrWithin_bounds _ _ _ _ _ B4 Hparent),
      (cidrWithin_bounds _ _ _ _ _ B5 Hparent),
      (cidrWithin_bounds _ _ _ _ _ B6 Hparent).
    assert (Horder :
              (address 10 0 1 0 <= address 10 0 2 0
               /\ address 10 0 2 0 <= address 10 0 3 0
               /\ address 10 0 3 0 <= address 10 0 101 0
               /\ address 10 0 101 0 <= address 10 0 102 0
               /\ address 10 0 102 0 <= address 10 0 103 0
               /\ address 10 0 1 255 <= address 10 0 2 255
               /\ address 10 0 2 255 <= address 10 0 3 255
               /\ address 10 0 3 255 <= address 10 0 101 255
               /\ address 10 0 101 255 <= address 10 0 102 255
               /\ address 10 0 102 255 <= address 10 0 103 255)%Z)
      by (vm_compute; repeat apply conj; discriminate).
    lia.
Qed.

(** With nothing configured the network is 10.0.0.0/16 and holds all six
    ranges. *)
Lemma subnet_ranges_disjoint_and_within_witness :
  vpcNetworkCidr emptyConfig = "10.0.0.0/16"
  /\ Forall (fun s => cidrWithin s (vpcNetworkCidr emptyConfig))
       (privateSubnetCidrBlock ++ publicSubnetCidrBlock).
Proof.
  destruct (subnet_ranges_disjoint_and_within emptyConfig)
    as (_ & Hdefault & _).
  split; [reflexivity | apply Hdefault; reflexivity].
Defined.

(** C4 as stated fails: with [vpcNetworkCidr] configured as
    ['192.168.0.0/16'] the ranges are not all contained in it. *)
Lemma subnet_ranges_not_within_every_network :
  ~ (forall config,
       Forall (fun s => cidrWithin s (vpcNetworkCidr config))
         (privateSubnetCidrBlock ++ publicSubnetCidrBlock)).
Proof.
  intros Hall. specialize (Hall otherNetworkConfig).
  apply Forall_inv in Hall.
  change (vpcNetworkCidr otherNetworkConfig) with "192.168.0.0/16" in Hall.
  destruct subnet_block_bounds as (B1 & _).
  assert (Hparent :
            parseCidr "192.168.0.0/16"
            = Some {| base := address 192 168 0 0; prefixLength := 16 |})
    by (vm_compute; reflexivity).
  apply (cidrWithin_bounds _ _ _ _ _ B1 Hparent) in Hall.
  destruct Hall as [Hfirst _]. revert Hfirst. vm_compute. auto.
Qed.

(** ** The subnet helper on arbitrary lists of ranges *)

Section SubnetsFrom.
Variables (eksVpc : Resource) (isPublic : bool).

Lemma subnetsFrom_length ranges : forall index,
  length (subnetsFrom eksVpc isPublic index ranges) = length ranges.
Proof.
  induction ranges as [| cidrRange rest IH]; intros index; cbn; auto.
Qed.

(** Nothing but subnets is declared, so reading the subnets back loses
    nothing. *)
Lemma subnetsFrom_subnetsOf ranges : forall index,
  map (fun s => NewSubnet (fst s) (snd s))
    (subnetsOf (subnetsFrom eksVpc isPublic index ranges))
  = subnetsFrom eksVpc isPublic index ranges.
Proof.
  induction ranges as [| cidrRange rest IH]; intros index; [reflexivity |].
  cbn [subnetsFrom subnetsOf flat_map app map fst snd].
  f_equal. apply IH.
Qed.

Lemma subnetsFrom_names ranges : forall index,
  map fst (subnetsOf (subnetsFrom eksVpc isPublic index ranges))
  = map (subnetName isPublic) (seq index (length ranges)).
Proof.
  induction ranges as [| cidrRange rest IH]; intros index; [reflexivity |].
  cbn [subnetsFrom subnetsOf flat_map app map fst length seq].
  f_equal. apply IH.
Qed.

Lemma subnetsFrom_cidrBlocks ranges : forall index,
  map (fun s => Subnet.cidrBlock (snd s))
    (subnetsOf (subnetsFrom eksVpc isPublic index ranges))
  = ranges.
Proof.
  induction ranges as [| cidrRange rest IH]; intros index; [reflexivity |].
  cbn [subnetsFrom subnetsOf flat_map app map snd Subnet.cidrBlock].
  f_equal. apply IH.
Qed.

Lemma subnetsFrom_vpcId ranges : forall index,
  Forall (fun s => Subnet.vpcId (snd s) = Out.id eksVpc)
    (subnetsOf (subnetsFrom eksVpc isPublic index ranges)).
Proof.
  induction ranges as [| cidrRange rest IH]; intros index;
    [apply Forall_nil |].
  cbn [subnetsFrom subnetsOf flat_map app].
  apply Forall_cons; [reflexivity | apply IH].
Qed.

Lemma subnetsFrom_zones ranges : forall index,
  map (fun s => Subnet.availabilityZone (snd s))
    (subnetsOf (subnetsFrom eksVpc isPublic index ranges))
  = map (fun i => if zoneCondition i then "us-west-2a" else "us-west-2b")
      (seq index (length ranges)).
Proof.
  induction ranges as [| cidrRange rest IH]; intros index; [reflexivity |].
  cbn [subnetsFrom subnetsOf flat_map app map snd length seq
       Subnet.availabilityZone].
  f_equal. apply IH.
Qed.

(** X1: mapping [createSubnetAndGetID] over any list of ranges keeps what
    was declared before, declares after it exactly one subnet per range, in
    list order, each with its range as [cidrBlock], the network's [id] as
    [vpcId] and the given flag as [mapPublicIpOnLaunch], and returns the
    [id]s of these subnets in the same order. *)
Theorem Array_map_createSubnet (ranges : list string)
    (declaredBefore : list Resource) :
  exists created,
    runState
      (Array_map
         (fun subnet index =>
            createSubnetAndGetID eksVpc subnet index isPublic)
         ranges)
      declaredBefore
    = (map (fun s => subnetId (fst s)) (subnetsOf created),
       (declaredBefore ++ created)%list)
    /\ length created = length ranges
    /\ map (fun s => NewSubnet (fst s) (snd s)) (subnetsOf created) = created
    /\ map (fun s => Subnet.cidrBlock (snd s)) (subnetsOf created) = ranges
    /\ Forall (fun s => Subnet.vpcId (snd s) = Out.id eksVpc
                        /\ Subnet.mapPublicIpOnLaunch (snd s) = isPublic)
         (subnetsOf created).
Proof.
  exists (subnetsFrom eksVpc isPublic 0 ranges).
  unfold Array_map. rewrite map_from_run.
  repeat apply conj.
  - f_equal. rewrite <- (map_map fst subnetId), subnetsFrom_names.
    now rewrite map_map.
  - apply subnetsFrom_length.
  - apply subnetsFrom_subnetsOf.
  - apply subnetsFrom_cidrBlocks.
  - apply Forall_forall. intros s Hs. split.
    + now apply (proj1 (Forall_forall _ _) (subnetsFrom_vpcId ranges 0)).
    + pose proof (subnetsFrom_flag eksVpc isPublic ranges 0) as Hflags.
      apply (in_map (fun s => Subnet.mapPublicIpOnLaunch (snd s))) in Hs.
      rewrite Hflags in Hs. now apply repeat_spec in Hs.
Qed.
End SubnetsFrom.

(** ** Subnet names *)

(** The decimal rendering of a position determines the position. *)
Lemma string_of_index_injective (i j : nat) :
  string_of_index i = string_of_index j -> i = j.
Proof.
  unfold string_of_index. intros Hsame.
  apply (f_equal NilEmpty.uint_of_string) in Hsame.
  rewrite !NilEmpty.usu in Hsame. injection Hsame as Hdigits.
  apply (f_equal Nat.of_uint) in Hdigits.
  now rewrite !DecimalNat.Unsigned.of_to in Hdigits.
Qed.

(** X2: the template literal of line 34 gives different names to different
    subnets: two names are equal only for the same flag and the same
    index. *)
Theorem subnetName_injective (isPublic isPublic' : bool) (index index' : nat) :
  subnetName isPublic index = subnetName isPublic' index' ->
  isPublic = isPublic' /\ index = index'.
Proof.
  unfold subnetName. intros Hsame.
  destruct isPublic, isPublic'; cbn [append] in Hsame;
    try discriminate Hsame; split; trivial;
    apply string_of_index_injective; now injection Hsame.
Qed.

Lemma subnetName_injective_witness :
  true = true /\ 2 = 2.
Proof.
  apply (subnetName_injective true true 2 2). reflexivity.
Defined.

Lemma subnetId_injective (name name' : string) :
  subnetId name = subnetId name' -> name = name'.
Proof. unfold subnetId. now intros [= ->]. Qed.

(** The [id]s a mapping returns are pairwise different. *)
Lemma subnetIds_NoDup (isPublic : bool) (count : nat) :
  NoDup (map (fun i => subnetId (subnetName isPublic i)) (seq 0 count)).
Proof.
  apply Finite.Injective_map_NoDup; [| apply seq_NoDup].
  intros i j Hsame. apply subnetId_injective in Hsame.
  now apply subnetName_injective in Hsame.
Qed.

(** X3: mapping the helper over any private list and then over any public
    list, as lines 45-52 do, yields [id]s that are pairwise different, so the
    spread list of lines 80 and 124 never names a subnet twice. *)
Theorem private_and_public_ids_distinct (eksVpc : Resource)
    (privateRanges publicRanges : list string)
    (declaredBefore : list Resource) :
  let '(privateIds, declaredThen) :=
    runState
      (Array_map
         (fun subnet index => createSubnetAndGetID eksVpc subnet index false)
         privateRanges)
      declaredBefore in
  let publicIds :=
    evalState
      (Array_map
         (fun subnet index => createSubnetAndGetID eksVpc subnet index true)
         publicRanges)
      declaredThen in
  NoDup (privateIds ++ publicIds)%list.
Proof.
  unfold Array_map, evalState. rewrite !map_from_run. cbn [fst].
  apply NoDup_app; try apply subnetIds_NoDup.
  intros o Hprivate Hpublic.
  apply in_map_iff in Hprivate. destruct Hprivate as (i & <- & _).
  apply in_map_iff in Hpublic. destruct Hpublic as (j & Hsame & _).
  apply subnetId_injective, subnetName_injective in Hsame.
  destruct Hsame as [Hflag _]. discriminate Hflag.
Qed.

(** ** Availability zones on longer lists *)

(** The condition of line 38 at every position below [zoneBound]. *)
Lemma zoneCondition_below_bound (index : nat) :
  index < zoneBound -> zoneCondition index = (index =? 0)%nat.
Proof.
  intros Hindex.
  assert (Hall : forallb
                   (fun i => Bool.eqb (zoneCondition i) (i =? 0)%nat)
                   (seq 0 zoneBound) = true)
    by (vm_compute; reflexivity).
  rewrite forallb_forall in Hall.
  apply Bool.eqb_prop, Hall, in_seq. lia.
Qed.

(** X4: on any list of at most 4096 ranges the helper places the first
    subnet in ['us-west-2a'] and every further one in ['us-west-2b']: the
    zones never alternate. *)
Theorem zones_first_only (eksVpc : Resource) (isPublic : bool)
    (ranges : list string) (declaredBefore : list Resource)
    (Hcount : length ranges <= zoneBound) :
  exists created,
    execState
      (Array_map
         (fun subnet index =>
            createSubnetAndGetID eksVpc subnet index isPublic)
         ranges)
      declaredBefore
    = (declaredBefore ++ created)%list
    /\ map (fun s => Subnet.availabilityZone (snd s)) (subnetsOf created)
       = firstZoneOnly (length ranges).
Proof.
  exists (subnetsFrom eksVpc isPublic 0 ranges).
  unfold Array_map, execState. rewrite map_from_run. split; [reflexivity |].
  rewrite subnetsFrom_zones.
  revert Hcount. generalize (length ranges) as count.
  intros [| others] Hcount; [reflexivity |].
  cbn [seq map firstZoneOnly].
  rewrite (zoneCondition_below_bound 0) by (unfold zoneBound; lia).
  cbn [Nat.eqb]. f_equal.
  rewrite <- (length_seq others 1) at 2. rewrite <- map_const.
  apply map_ext_in. intros i Hi. apply in_seq in Hi.
  rewrite zoneCondition_below_bound by lia.
  destruct i; [lia | reflexivity].
Qed.

(** Four ranges: one subnet in ['us-west-2a'], three in ['us-west-2b']. *)
Lemma zones_first_only_witness :
  exists created,
    execState
      (Array_map
         (fun subnet index =>
            createSubnetAndGetID (NewVpc "eks-vpc"
              {| Vpc.tags := []; Vpc.cidrBlock := "10.0.0.0/16" |})
              subnet index false)
         ["10.0.1.0/24"; "10.0.2.0/24"; "10.0.3.0/24"; "10.0.4.0/24"])
      []
    = created
    /\ map (fun s => Subnet.availabilityZone (snd s)) (subnetsOf created)
       = ["us-west-2a"; "us-west-2b"; "us-west-2b"; "us-west-2b"].
Proof.
  assert (Hcount : length ["10.0.1.0/24"; "10.0.2.0/24"; "10.0.3.0/24";
                           "10.0.4.0/24"] <= zoneBound)
    by (unfold zoneBound; cbn [length]; lia).
  destruct (zones_first_only
              (NewVpc "eks-vpc"
                 {| Vpc.tags := []; Vpc.cidrBlock := "10.0.0.0/16" |})
              false _ [] Hcount) as (created & Hrun & Hzones).
  exists created. split; [exact Hrun | exact Hzones].
Defined.

(** ** What defaulting guarantees *)

(** With a truthy default, [value || default] is truthy whatever the value
    is. *)
Lemma logical_or_never_falsy {A : Type} `{ToBoolean A} (v : option A) (d : A) :
  toBoolean d = true -> toBoolean (logical_or v d) = true.
Proof.
  intros Hd. destruct v as [x |]; [| exact Hd].
  unfold logical_or. now destruct (toBoolean x) eqn:Hx.
Qed.

(** X5: whatever is configured, the node group is never given a size that
    is 0 or NaN nor an empty instance type, and the network is never given
    an empty address range: a falsy setting, like a missing one, is replaced
    before it reaches a resource. *)
Theorem resources_never_get_falsy_values (config : Config) :
  exists network group,
    vpcsOf (declared config) = [("eks-vpc", network)]
    /\ nodeGroupsOf (declared config) = [("worker-node-group", group)]
    /\ Vpc.cidrBlock network <> ""
    /\ (forall instanceType,
          In instanceType (NodeGroup.instanceTypes group) ->
          instanceType <> "")
    /\ let sizes := NodeGroup.scalingConfig group in
       Forall
         (fun size => (size =? 0)%float = false
                      /\ PrimFloat.is_nan size = false)
         [NodeGroup.minSize sizes; NodeGroup.desiredSize sizes;
          NodeGroup.maxSize sizes].
Proof.
  assert (Hnumber : forall x : number,
            toBoolean x = true ->
            (x =? 0)%float = false /\ PrimFloat.is_nan x = false).
  { intros x. unfold toBoolean, ToBoolean_number.
    destruct (x =? 0)%float, (PrimFloat.is_nan x); cbn; auto; discriminate. }
  assert (Hstring : forall s : string, toBoolean s = true -> s <> "").
  { intros s Htruthy ->. discriminate Htruthy. }
  do 2 eexists. split; [reflexivity |]. split; [reflexivity |].
  cbn [Vpc.cidrBlock NodeGroup.instanceTypes NodeGroup.scalingConfig
       NodeGroup.minSize NodeGroup.desiredSize NodeGroup.maxSize].
  repeat apply conj.
  - now apply Hstring, logical_or_never_falsy.
  - intros instanceType [<- | []].
    now apply Hstring, logical_or_never_falsy.
  - repeat (apply Forall_cons;
            [now apply Hnumber, logical_or_never_falsy |]).
    apply Forall_nil.
Qed.

(** ** What the configuration can change *)

(** X6: the script reads five keys and nothing else: two configurations
    that agree on them declare the same resources and export the same
    values. *)
Theorem only_five_keys_are_read (config config' : Config)
    (Hmin : getNumber config "minClusterSize"
            = getNumber config' "minClusterSize")
    (Hmax : getNumber config "maxClusterSize"
            = getNumber config' "maxClusterSize")
    (Hdesired : getNumber config "desiredClusterSize"
                = getNumber config' "desiredClusterSize")
    (Htype : get config "eksNodeInstanceType"
             = get config' "eksNodeInstanceType")
    (Hcidr : get config "vpcNetworkCidr" = get config' "vpcNetworkCidr") :
  declared config = declared config' /\ exports config = exports config'.
Proof.
  unfold declared, exports, execState, evalState, script.
  unfold minClusterSize, maxClusterSize, desiredClusterSize,
    eksNodeInstanceType, vpcNetworkCidr.
  now rewrite Hmin, Hmax, Hdesired, Htype, Hcidr.
Qed.

(** Setting keys the script never reads gives what no configuration
    gives. *)
Lemma only_five_keys_are_read_witness :
  declared unrelatedKeyConfig = declared emptyConfig
  /\ exports unrelatedKeyConfig = exports emptyConfig.
Proof.
  apply (only_five_keys_are_read unrelatedKeyConfig emptyConfig);
    reflexivity.
Defined.

(** X7: the configuration reaches the network and the node group only.  The
    subnets, both roles, the four attachments and the cluster are the same
    for all configurations, and so are the exports; in particular
    [vpcNetworkCidr] never moves a subnet range. *)
Theorem configuration_reaches_network_and_nodeGroup_only
    (config config' : Config) :
  filter
    (fun r => negb (Kind_eqb (kindOf r) KVpc
                    || Kind_eqb (kindOf r) KNodeGroup))
    (declared config)
  = filter
      (fun r => negb (Kind_eqb (kindOf r) KVpc
                      || Kind_eqb (kindOf r) KNodeGroup))
      (declared config')
  /\ map (fun s => Subnet.cidrBlock (snd s)) (subnetsOf (declared config))
     = (privateSubnetCidrBlock ++ publicSubnetCidrBlock)%list
  /\ exports config = exports config'.
Proof. repeat apply conj; reflexivity. Qed.

(** ** Running the script after other declarations *)

(** X8: the script only ever adds resources.  Started with any resources
    already declared, it keeps them, in order, declares its own fifteen
    after them, and exports the same values as when started with none. *)
Theorem script_only_appends (config : Config)
    (declaredBefore : list Resource) :
  runState (script config) declaredBefore
  = (exports config, (declaredBefore ++ declared config)%list).
Proof.
  unfold exports, declared, evalState, execState, script, Array_map.
  rewrite !runState_bind, !map_from_run.
  cbn. now rewrite <- !app_assoc.
Qed.

(** ** References resolve *)



(** Declaring more resources keeps a reference resolved. *)
Lemma Resolves_app (rs before after : list Resource) (o : Output) :
  Resolves rs o -> Resolves (before ++ rs ++ after) o.
Proof.
  intros (r & Hin & Hmatch). exists r. split; [| exact Hmatch].
  apply in_or_app. right. apply in_or_app. now left.
Qed.

Lemma Resolves_later (rs after : list Resource) (o : Output) :
  Resolves rs o -> Resolves (rs ++ after) o.
Proof. apply (Resolves_app rs [] after). Qed.




Lemma subnetsFrom_WellScoped (eksVpc : Resource) (isPublic : bool)
    (ranges : list string) : forall index declaredBefore,
  WellScoped declaredBefore ->
  Resolves declaredBefore (Out.id eksVpc) ->
  WellScoped (declaredBefore ++ subnetsFrom eksVpc isPublic index ranges).
Proof.
  induction ranges as [| cidrRange rest IH];
    intros index declaredBefore Hscoped Hvpc.
  - cbn [subnetsFrom]. now rewrite app_nil_r.
  - cbn [subnetsFrom].
    match goal with
    | |- WellScoped (_ ++ ?r :: ?l) =>
        change (r :: l) with ([r] ++ l)%list
    end.
    rewrite app_assoc. apply IH.
    + apply WellScoped_snoc; [exact Hscoped |].
      cbn [references Subnet.vpcId]. now apply Forall_cons.
    + now apply Resolves_later.
Qed.

(** X9: when the network passed to the helper is among the resources
    already declared, mapping the helper over any list of ranges keeps the
    declarations well scoped: every subnet it adds refers to a resource
    declared before it. *)
Theorem Array_map_createSubnet_WellScoped (eksVpc : Resource)
    (isPublic : bool) (ranges : list string) (declaredBefore : list Resource)
    (Hscoped : WellScoped declaredBefore)
    (Hvpc : In eksVpc declaredBefore) :
  WellScoped
    (execState
       (Array_map
          (fun subnet index =>
             createSubnetAndGetID eksVpc subnet index isPublic)
          ranges)
       declaredBefore).
Proof.
  unfold Array_map, execState. rewrite map_from_run. cbn [snd].
  apply subnetsFrom_WellScoped; [exact Hscoped |].
  exists eksVpc. now repeat split.
Qed.

Lemma Array_map_createSubnet_WellScoped_witness :
  let eksVpc :=
    NewVpc "eks-vpc" {| Vpc.tags := []; Vpc.cidrBlock := "10.0.0.0/16" |} in
  WellScoped
    (execState
       (Array_map
          (fun subnet index => createSubnetAndGetID eksVpc subnet index true)
          ["10.0.101.0/24"; "10.0.102.0/24"])
       [eksVpc]).
Proof.
  intros eksVpc.
  apply (Array_map_createSubnet_WellScoped eksVpc true _ [eksVpc]).
  - exact (WellScoped_snoc [] eksVpc WellScoped_nil (Forall_nil _)).
  - now left.
Defined.



(** ** Logical names *)

Lemma distinctb_sound (names : list string) :
  distinctb names = true -> NoDup names.
Proof.
  induction names as [| n rest IH]; intros Hcheck; [apply NoDup_nil |].
  cbn [distinctb] in Hcheck. apply andb_true_iff in Hcheck.
  destruct Hcheck as [Hfresh Hrest].
  apply NoDup_cons; [| now apply IH].
  intros Hin. apply negb_true_iff in Hfresh.
  assert (Hfound : existsb (String.eqb n) rest = true)
    by (apply existsb_exists; exists n; split;
        [exact Hin | apply String.eqb_refl]).
  congruence.
Qed.

(** X11: for every configuration the fifteen resources are declared under
    fifteen different logical names, so each reference made in the script
    names one resource only. *)
Theorem logical_names_distinct (config : Config) :
  NoDup (map logicalName (declared config))
  /\ forall r r' o,
       In r (declared config) -> In r' (declared config) ->
       logicalName r = owner o -> logicalName r' = owner o -> r = r'.
Proof.
  assert (Hdistinct : NoDup (map logicalName (declared config)))
    by (apply distinctb_sound; reflexivity).
  split; [exact Hdistinct |].
  intros r r' o Hr Hr' Hname Hname'.
  rewrite <- Hname' in Hname. clear Hname' o.
  revert Hdistinct r r' Hr Hr' Hname.
  generalize (declared config) as rs.
  induction rs as [| x rs IH]; intros Hdistinct r r' Hr Hr' Hname;
    [contradiction |].
  cbn [map] in Hdistinct. apply NoDup_cons_iff in Hdistinct.
  destruct Hdistinct as [Hfresh Hrest].
  destruct Hr as [-> | Hr], Hr' as [-> | Hr']; trivial.
  - exfalso. apply Hfresh. rewrite Hname. now apply in_map.
  - exfalso. apply Hfresh. rewrite <- Hname. now apply in_map.
  - now apply IH.
Qed.

(** ** Consistency of the client configuration *)

(** X12: for all resolved inputs the generated document is closed: the
    cluster and the user that each context names are entries of [clusters]
    and of [users], and ['current-context'] names an entry of [contexts]. *)
Theorem kubeconfig_names_resolve (clusterName clusterEndpoint : string)
    (clusterCA : CertificateAuthority) :
  let kubeconfig := kubeconfigCallback clusterName clusterEndpoint clusterCA in
  Forall
    (fun entry =>
       (exists c, In c (KubeConfig.clusters kubeconfig)
                  /\ ClusterEntry.name c
                     = Context.cluster (ContextEntry.context entry))
       /\ (exists u, In u (KubeConfig.users kubeconfig)
                     /\ UserEntry.name u
                        = Context.user (ContextEntry.context entry)))
    (KubeConfig.contexts kubeconfig)
  /\ exists entry, In entry (KubeConfig.contexts kubeconfig)
                   /\ ContextEntry.name entry
                      = KubeConfig.current_context kubeconfig.
Proof.
  cbn. split.
  - apply Forall_cons; [| apply Forall_nil].
    split; eexists; (split; [left; reflexivity | reflexivity]).
  - eexists. split; [left; reflexivity | reflexivity].
Qed.

(** X13: the generated document determines its inputs: two documents are
    equal only when the cluster name, the endpoint and the
    certificate-authority data are. *)
Theorem kubeconfigCallback_injective
    (clusterName clusterName' clusterEndpoint clusterEndpoint' : string)
    (clusterCA clusterCA' : CertificateAuthority) :
  kubeconfigCallback clusterName clusterEndpoint clusterCA
  = kubeconfigCallback clusterName' clusterEndpoint' clusterCA' ->
  clusterName = clusterName' /\ clusterEndpoint = clusterEndpoint'
  /\ clusterCA = clusterCA'.
Proof.
  unfold kubeconfigCallback. intros Hsame.
  injection Hsame as Hendpoint Hdata Hname.
  destruct clusterCA, clusterCA'. cbn [data] in Hdata.
  now subst.
Qed.

Lemma kubeconfigCallback_injective_witness :
  "prod" = "prod" /\ "https://example" = "https://example"
  /\ {| data := "Q0E=" |} = {| data := "Q0E=" |}.
Proof.
  apply (kubeconfigCallback_injective "prod" "prod" "https://example"
           "https://example" {| data := "Q0E=" |} {| data := "Q0E=" |}).
  reflexivity.
Defined.
